(** * dwarfs: error taxonomy, fatal handlers and the [safe_main] harness

    A shallow embedding of [src/dwarfs/error.cpp].

    The C++ code is effectful: it reads [errno], appends to [std::cerr],
    raises and catches exceptions and may end the process with [::abort()].
    It is embedded in a small state-and-outcome monad [M] over a [world]
    record.  What the translation unit only calls (the C++ standard library,
    folly, [setup_terminal] and the entry point handed to [safe_main]) is a
    parameter of the development, so every statement holds for any behaviour
    of those collaborators: each of them may return, throw or end the
    process, and may change the process state.  Functions that only compute
    a text ([what()], [folly::exceptionStr], the rendering of a tracer entry)
    and the insertions into [std::cerr] are total. *)

From Stdlib Require Import ZArith String Ascii List Bool Lia.
From Stdlib Require Import DecimalString.
Import ListNotations.

Local Open Scope string_scope.
Local Open Scope Z_scope.

(** ** Text helpers *)

Module Text.

(** The line feed that ends every diagnostic line. *)
Definition nl : string := String "010"%char EmptyString.

(** The double-quote character (an escaped quote in the C++ literal). *)
Definition dq : string := String "034"%char EmptyString.

(** [operator<<(std::ostream&, int)]: decimal digits, a leading minus sign
    for negative values. *)
Definition show_int (z : Z) : string := NilZero.string_of_int (Z.to_int z).

(** [contains sub s]: [sub] occurs in [s] as a contiguous substring. *)
Fixpoint contains (sub s : string) : bool :=
  String.prefix sub s ||
  match s with
  | EmptyString => false
  | String _ s' => contains sub s'
  end.

(** Number of newline characters of a text, that is the number of lines it
    completes. *)
Fixpoint count_nl (s : string) : nat :=
  match s with
  | EmptyString => O
  | String c s' => ((if Ascii.eqb c "010"%char then 1 else 0) + count_nl s')%nat
  end.

(** Concatenation of a list of texts. *)
Fixpoint join (xs : list string) : string :=
  match xs with
  | [] => ""
  | x :: xs' => x ++ join xs'
  end.

End Text.

Import Text.

(** ** Exception objects

    The classes that [safe_main] tells apart.  [dwarfs::system_error] is
    defined in this translation unit: it derives from [std::system_error]
    (which stores the error code and the optional [what_arg]) and adds the
    origin [file_] and [line_].  [dwarfs::error] is declared in
    [dwarfs/error.h]; the harness uses its [file()] and [line()] accessors
    and hands it to [folly::exceptionStr], which takes a
    [std::exception const&], so it derives from [std::exception]. *)

Record system_error := mk_system_error {
  what_arg : option string;   (* message given to the std::system_error base *)
  code : Z;                   (* code().value(), category generic_category() *)
  file_ : string;
  line_ : Z
}.

Record error := mk_error {
  error_class : string;       (* demangled dynamic class name *)
  error_what : string;
  error_file : string;
  error_line : Z
}.

(** Objects whose class derives from [std::exception]. *)
Inductive std_exception :=
| Std_system_error (e : system_error)
| Std_error (e : error)
| Std_other (class_name what : string).

(** Anything that can be thrown. *)
Inductive exn :=
| Exn_std (e : std_exception)
| Exn_foreign (tag : string).   (* a class outside the std::exception tree *)

(** ** Process state and the monad of effects *)

(** How a call ends. *)
Inductive outcome (A : Type) :=
| Ret (a : A)             (* normal return *)
| Throw (e : exn)         (* an exception propagates to the caller *)
| Abort.                  (* the process is terminated *)

Arguments Ret {A} a.
Arguments Throw {A} e.
Arguments Abort {A}.

Section Process.

(** The part of the process state the collaborators act on but this
    translation unit never inspects (locale tables, terminal, heap). *)
Context {Ext : Type}.

Record world := mk_world {
  errno : Z;              (* the thread's last-error value *)
  cerr : string;          (* everything written to std::cerr so far *)
  caught : list exn;      (* exceptions being handled, most recent first *)
  ext : Ext
}.

Definition M (A : Type) : Type := world -> outcome A * world.

Definition ret {A} (a : A) : M A := fun w => (Ret a, w).

Definition bind {A B} (m : M A) (k : A -> M B) : M B := fun w =>
  match m w with
  | (Ret a, w') => k a w'
  | (Throw e, w') => (Throw e, w')
  | (Abort, w') => (Abort, w')
  end.

Definition throw {A} (e : exn) : M A := fun w => (Throw e, w).

(** [::abort()] and [std::terminate()]. *)
Definition abort {A} : M A := fun w => (Abort, w).

(** A function declared [noexcept]: an exception that would leave it calls
    [std::terminate]. *)
Definition noexcept {A} (m : M A) : M A := fun w =>
  match m w with
  | (Throw _, w') => (Abort, w')
  | r => r
  end.

(** Reading the [errno] macro. *)
Definition get_errno : M Z := fun w => (Ret (errno w), w).

(** The state once [s] has been appended to [std::cerr]. *)
Definition emit (s : string) (w : world) : world :=
  mk_world (errno w) (cerr w ++ s) (caught w) (ext w).

(** [std::cerr << s].  The stream keeps its default exception mask, so an
    insertion never throws.  Only the text is followed: the value a failed
    write would leave in [errno] is not modelled. *)
Definition cerr_write (s : string) : M unit := fun w => (Ret tt, emit s w).

(** Entering and leaving a handler ([__cxa_begin_catch] and
    [__cxa_end_catch]): the exception is on the stack of caught exceptions
    for as long as its handler runs. *)
Definition begin_catch (e : exn) (w : world) : world :=
  mk_world (errno w) (cerr w) (e :: caught w) (ext w).

Definition end_catch (w : world) : world :=
  mk_world (errno w) (cerr w) (tl (caught w)) (ext w).

(** One [catch] clause: [None] when the exception's class does not match the
    clause, the handler otherwise. *)
Definition clause (A : Type) : Type := exn -> option (M A).

Definition catch_system_error {A} (h : system_error -> M A) : clause A :=
  fun x => match x with
           | Exn_std (Std_system_error e) => Some (h e)
           | _ => None
           end.

Definition catch_error {A} (h : error -> M A) : clause A :=
  fun x => match x with
           | Exn_std (Std_error e) => Some (h e)
           | _ => None
           end.

Definition catch_std_exception {A} (h : std_exception -> M A) : clause A :=
  fun x => match x with
           | Exn_std e => Some (h e)
           | Exn_foreign _ => None
           end.

Definition catch_all {A} (h : M A) : clause A := fun _ => Some h.

(** The first clause, in source order, that matches. *)
Fixpoint select {A} (cs : list (clause A)) (x : exn) : option (M A) :=
  match cs with
  | [] => None
  | c :: cs' => match c x with
                | Some h => Some h
                | None => select cs' x
                end
  end.

(** [try { body } catch ... ]. *)
Definition try_catch {A} (body : M A) (cs : list (clause A)) : M A := fun w =>
  match body w with
  | (Throw x, w') =>
      match select cs x with
      | Some h => let (r, w'') := h (begin_catch x w') in (r, end_catch w'')
      | None => (Throw x, w')
      end
  | r => r
  end.

End Process.

Arguments world : clear implicits.
Arguments M : clear implicits.
Arguments clause : clear implicits.

Declare Scope proc_scope.
Delimit Scope proc_scope with proc.
Notation "x <- m ;; k" := (bind m (fun x => k))
  (at level 100, m at next level, right associativity) : proc_scope.
Notation "m ;; k" := (bind m (fun _ => k))
  (at level 100, right associativity) : proc_scope.

Local Open Scope proc_scope.

(** [for (auto& x : xs) body(x);] *)
Fixpoint for_each {Ext A} (xs : list A) (body : A -> M Ext unit) : M Ext unit :=
  match xs with
  | [] => ret tt
  | x :: xs' => body x ;; for_each xs' body
  end.

(** ** What the translation unit calls but does not define *)

Class Collaborators (Ext : Type) := {
  (** Build configuration: [_WIN32] and [DWARFS_USE_EXCEPTION_TRACER] are
      defined. *)
  WIN32 : bool;
  DWARFS_USE_EXCEPTION_TRACER : bool;
  (** The C++ standard library.  [std_system_error_init] is what constructing
      the [std::system_error] base does besides storing its arguments: it
      builds the [what()] text on the heap, so it may overwrite [errno] and
      it is not [noexcept].  [std_system_error_what] is the text [what()]
      then returns for a code of [std::generic_category()] and an optional
      message. *)
  std_system_error_init : M Ext unit;
  std_system_error_what : Z -> option string -> string;
  (** [std::locale::global(std::locale(name))],
      [std::locale::global(std::locale::classic())] and
      [std::setlocale(LC_ALL, name)], the last one as the truth value of the
      pointer it returns. *)
  std_locale_global : string -> M Ext unit;
  std_locale_global_classic : M Ext unit;
  std_setlocale : string -> M Ext bool;
  (** folly: the crash reporter, and the text [operator<<] writes for one
      entry of [exception_tracer::getCurrentExceptions()]. *)
  installFatalSignalHandler : M Ext unit;
  show_exception_info : exn -> string;
  (** [dwarfs/terminal.h]. *)
  setup_terminal : M Ext unit
}.

(** ** The translation unit *)

Section Program.

Context {Ext : Type} {C : Collaborators Ext}.

(** *** Rendering of exceptions *)

Definition system_error_what (e : system_error) : string :=
  std_system_error_what (code e) (what_arg e).

(** [typeid(e)], demangled.  Nothing in the program derives from
    [dwarfs::system_error]. *)
Definition class_name (e : std_exception) : string :=
  match e with
  | Std_system_error _ => "dwarfs::system_error"
  | Std_error e' => error_class e'
  | Std_other c _ => c
  end.

(** [e.what()]. *)
Definition what (e : std_exception) : string :=
  match e with
  | Std_system_error e' => system_error_what e'
  | Std_error e' => error_what e'
  | Std_other _ m => m
  end.

(** [folly::exceptionStr(std::exception const&)]: the demangled class name, a
    colon and a blank, and [what()]. *)
Definition exceptionStr (e : std_exception) : string :=
  class_name e ++ ": " ++ what e.

(** [folly::exception_tracer::getCurrentExceptions()]: the exceptions being
    handled on this thread, the most recent one first. *)
Definition getCurrentExceptions : M Ext (list exn) :=
  fun w => (Ret (caught w), w).

(** *** [system_error::system_error], the four overloads (lines 39-55) *)

(** [system_error(std::string const& s, int err, char const* file, int line)] *)
Definition system_error_msg_code (s : string) (err : Z) (file : string)
    (line : Z) : M Ext system_error :=
  noexcept
    (std_system_error_init ;;
     ret {| what_arg := Some s; code := err; file_ := file; line_ := line |}).

(** [system_error(int err, char const* file, int line)] *)
Definition system_error_code (err : Z) (file : string) (line : Z)
    : M Ext system_error :=
  noexcept
    (std_system_error_init ;;
     ret {| what_arg := None; code := err; file_ := file; line_ := line |}).

(** [system_error(char const* file, int line)]: delegates with [errno]. *)
Definition system_error_here (file : string) (line : Z) : M Ext system_error :=
  noexcept (err <- get_errno ;; system_error_code err file line).

(** [system_error(std::string const& s, char const* file, int line)]:
    delegates with [errno]. *)
Definition system_error_msg (s : string) (file : string) (line : Z)
    : M Ext system_error :=
  noexcept (err <- get_errno ;; system_error_msg_code s err file line).

(** *** [dump_exceptions] (lines 57-66) *)

Definition dump_exceptions : M Ext unit :=
  if DWARFS_USE_EXCEPTION_TRACER then
    exceptions <- getCurrentExceptions ;;
    for_each exceptions (fun exc => cerr_write (show_exception_info exc ++ nl))
  else
    cerr_write ("cannot dump exceptions" ++ nl).

(** *** [assertion_failed] (lines 75-80) *)

Definition assertion_failed (expr msg file : string) (line : Z) : M Ext unit :=
  cerr_write ("Assertion `" ++ expr ++ "` failed in " ++ file ++ "("
              ++ show_int line ++ "): " ++ msg ++ nl) ;;
  abort.

(** *** [safe_main] (lines 82-125)

    The [try] block ends in [return fn();].  A handler that completes falls
    through to [return 1;] after the [try] statement, which is written here
    at the end of each handler. *)

Definition safe_main (fn : M Ext Z) : M Ext Z :=
  try_catch
    ((if WIN32 then ret tt else installFatalSignalHandler) ;;
     let locale := if WIN32 then "en_US.utf8" else "" in
     try_catch (std_locale_global locale)
       [catch_std_exception (fun _ =>
          cerr_write ("warning: failed to set user default locale" ++ nl) ;;
          try_catch std_locale_global_classic
            [catch_std_exception (fun _ =>
               cerr_write ("warning: also failed to set classic locale" ++ nl))])] ;;
     ok <- std_setlocale locale ;;
     (if negb ok
      then cerr_write ("warning: setlocale(LC_ALL, " ++ dq ++ dq ++ ") failed" ++ nl)
      else ret tt) ;;
     setup_terminal ;;
     fn)
    [catch_system_error (fun e =>
       cerr_write ("ERROR: " ++ exceptionStr (Std_system_error e) ++ " ["
                   ++ file_ e ++ ":" ++ show_int (line_ e) ++ "]" ++ nl) ;;
       dump_exceptions ;;
       ret 1);
     catch_error (fun e =>
       cerr_write ("ERROR: " ++ exceptionStr (Std_error e) ++ " ["
                   ++ error_file e ++ ":" ++ show_int (error_line e) ++ "]" ++ nl) ;;
       dump_exceptions ;;
       ret 1);
     catch_std_exception (fun e =>
       cerr_write ("ERROR: " ++ exceptionStr e ++ nl) ;;
       dump_exceptions ;;
       ret 1);
     catch_all
       (dump_exceptions ;;
        ret 1)].

End Program.

(** ** The parts of [safe_main] and the texts it writes

    Named pieces of the body of [safe_main] and closed forms of what the
    functions append to [std::cerr].  They are used to state the properties;
    [safe_main_parts] and [dump_exceptions_run] below relate them to the
    functions themselves. *)

Section Parts.

Context {Ext : Type} {C : Collaborators Ext}.

(** Lines 87-91: the name of the preferred locale. *)
Definition locale_name : string := if WIN32 then "en_US.utf8" else "".

(** Lines 84-86. *)
Definition signal_setup : M Ext unit :=
  if WIN32 then ret tt else installFatalSignalHandler.

Definition user_locale_warning : string :=
  "warning: failed to set user default locale" ++ nl.

Definition classic_locale_warning : string :=
  "warning: also failed to set classic locale" ++ nl.

(** Lines 92-101. *)
Definition locale_setup : M Ext unit :=
  try_catch (std_locale_global locale_name)
    [catch_std_exception (fun _ =>
       cerr_write user_locale_warning ;;
       try_catch std_locale_global_classic
         [catch_std_exception (fun _ => cerr_write classic_locale_warning)])].

(** Lines 103-105. *)
Definition c_locale_setup : M Ext unit :=
  ok <- std_setlocale locale_name ;;
  if negb ok
  then cerr_write ("warning: setlocale(LC_ALL, " ++ dq ++ dq ++ ") failed" ++ nl)
  else ret tt.

(** Lines 84-107: everything the [try] block does before [return fn();]. *)
Definition startup : M Ext unit :=
  signal_setup ;; locale_setup ;; c_locale_setup ;; setup_terminal.

(** The line a handler of [safe_main] writes before it calls
    [dump_exceptions]; the catch-all handler writes none. *)
Definition diagnostic (x : exn) : string :=
  match x with
  | Exn_std (Std_system_error e) =>
      "ERROR: " ++ exceptionStr (Std_system_error e) ++ " [" ++ file_ e ++ ":"
      ++ show_int (line_ e) ++ "]" ++ nl
  | Exn_std (Std_error e) =>
      "ERROR: " ++ exceptionStr (Std_error e) ++ " [" ++ error_file e ++ ":"
      ++ show_int (error_line e) ++ "]" ++ nl
  | Exn_std e => "ERROR: " ++ exceptionStr e ++ nl
  | Exn_foreign _ => ""
  end.

(** One entry per exception of a chain, each ended by a line feed. *)
Definition entries (chain : list exn) : string :=
  join (map (fun e => show_exception_info e ++ nl) chain).

(** Line feeds inside the renderings of a chain. *)
Definition inner_nl (chain : list exn) : nat :=
  list_sum (map (fun e => count_nl (show_exception_info e)) chain).

(** What [dump_exceptions] appends when [chain] is being handled. *)
Definition dump_text (chain : list exn) : string :=
  if DWARFS_USE_EXCEPTION_TRACER then entries chain
  else "cannot dump exceptions" ++ nl.

(** Lines 110-124 around an arbitrary body: what [safe_main] does with the
    outcome of its [try] block. *)
Definition catch_boundary (body : M Ext Z) : M Ext Z := fun w =>
  match body w with
  | (Throw x, w') => (Ret 1, emit (diagnostic x ++ dump_text (x :: caught w')) w')
  | r => r
  end.

(** The line written by [assertion_failed], without its line feed. *)
Definition assertion_line (expr msg file : string) (line : Z) : string :=
  "Assertion `" ++ expr ++ "` failed in " ++ file ++ "(" ++ show_int line
  ++ "): " ++ msg.

(** The line shape the specification gives for an assertion failure,
    [Assertion <condition> failed in <file>(<line>): <message>], read
    literally. *)
Definition specified_assertion_line (expr msg file : string) (line : Z)
    : string :=
  "Assertion " ++ expr ++ " failed in " ++ file ++ "(" ++ show_int line
  ++ "): " ++ msg.

End Parts.

(** ** A concrete process

    A POSIX build without the exception tracer, on a host whose state says
    which locales can be set and whether the terminal can be set up.  It is
    used to run the functions on concrete inputs. *)

Module Scenario.

Record host := mk_host {
  user_locale_valid : bool;
  classic_locale_valid : bool;
  c_locale_valid : bool;
  terminal_ready : bool
}.

Definition strerror (ev : Z) : string :=
  if ev =? 2 then "No such file or directory"
  else if ev =? 12 then "Cannot allocate memory"
  else "Unknown error " ++ show_int ev.

Definition runtime_error (m : string) : exn :=
  Exn_std (Std_other "std::runtime_error" m).

Definition terminal_failure : exn :=
  Exn_std (Std_error {| error_class := "dwarfs::runtime_error";
                        error_what := "no terminal";
                        error_file := "terminal.cpp";
                        error_line := 17 |}).

Definition posix : Collaborators host := {|
  WIN32 := false;
  DWARFS_USE_EXCEPTION_TRACER := false;
  (* the allocation leaves ENOMEM (12) in errno *)
  std_system_error_init :=
    fun w => (Ret tt, mk_world 12 (cerr w) (caught w) (ext w));
  std_system_error_what :=
    fun ev m => match m with
                | Some s => s ++ ": " ++ strerror ev
                | None => strerror ev
                end;
  std_locale_global :=
    fun _ w => if user_locale_valid (ext w) then (Ret tt, w)
               else (Throw (runtime_error "locale name not valid"), w);
  std_locale_global_classic :=
    fun w => if classic_locale_valid (ext w) then (Ret tt, w)
             else (Throw (runtime_error "classic locale unavailable"), w);
  std_setlocale := fun _ w => (Ret (c_locale_valid (ext w)), w);
  installFatalSignalHandler := ret tt;
  show_exception_info :=
    fun x => match x with
             | Exn_std (Std_system_error _) => "Exception type: dwarfs::system_error"
             | Exn_std (Std_error e) => "Exception type: " ++ error_class e
             | Exn_std (Std_other c _) => "Exception type: " ++ c
             | Exn_foreign t => "Exception type: " ++ t
             end;
  setup_terminal :=
    fun w => if terminal_ready (ext w) then (Ret tt, w)
             else (Throw terminal_failure, w)
|}.

(** The same build with the exception tracer compiled in. *)
Definition posix_traced : Collaborators host := {|
  WIN32 := false;
  DWARFS_USE_EXCEPTION_TRACER := true;
  std_system_error_init := @std_system_error_init _ posix;
  std_system_error_what := @std_system_error_what _ posix;
  std_locale_global := @std_locale_global _ posix;
  std_locale_global_classic := @std_locale_global_classic _ posix;
  std_setlocale := @std_setlocale _ posix;
  installFatalSignalHandler := @installFatalSignalHandler _ posix;
  show_exception_info := @show_exception_info _ posix;
  setup_terminal := @setup_terminal _ posix
|}.

(** The process at the call of [safe_main]: [errno] holds ENOENT (2), nothing
    was written and no exception is being handled. *)
Definition boot (h : host) : world host := mk_world 2 "" [] h.

Definition healthy : host := mk_host true true true true.
Definition without_locales : host := mk_host false false true true.
Definition without_classic_only : host := mk_host false true true true.
Definition without_terminal : host := mk_host true true true false.

Definition enoent : system_error :=
  {| what_arg := Some "open"; code := 2; file_ := "mmap.cpp"; line_ := 42 |}.

(** Entry points. *)
Definition returns_42 : M host Z := ret 42.
Definition raises_enoent : M host Z := throw (Exn_std (Std_system_error enoent)).
Definition raises_int : M host Z := throw (Exn_foreign "int").

End Scenario.

(** ** [handle_nothrow] (lines 68-73)

    [std::current_exception()] is the exception whose handler is running, a
    null pointer outside a handler.  [folly::exceptionStr(std::exception_ptr)]
    rethrows the pointee: a [std::exception] is rendered as by the overload
    [safe_main] uses; what it returns for another class or for a null
    pointer depends on the folly release and is a parameter. *)

Section Nothrow.

Context {Ext : Type} {C : Collaborators Ext}.

Variable exceptionStr_foreign : option string -> string.





End Nothrow.

(** The warning of lines 103-105. *)
Definition c_locale_warning : string :=
  "warning: setlocale(LC_ALL, " ++ dq ++ dq ++ ") failed" ++ nl.

(** ** [dump_exceptions] with the query left open

    Lines 57-66 once more, with the call of
    [folly::exception_tracer::getCurrentExceptions()] replaced by an arbitrary
    query, which may return any list, throw or end the process.
    [dump_exceptions] is the instance at [getCurrentExceptions]. *)

Section DumpVia.

Context {Ext : Type} {C : Collaborators Ext}.

Definition dump_exceptions_via (query : M Ext (list exn)) : M Ext unit :=
  if DWARFS_USE_EXCEPTION_TRACER then
    exceptions <- query ;;
    for_each exceptions (fun exc => cerr_write (show_exception_info exc ++ nl))
  else
    cerr_write ("cannot dump exceptions" ++ nl).

End DumpVia.

(** ** A concrete process with faults

    The build of [Scenario.posix_traced] on a machine where constructing the
    [std::system_error] base runs out of memory and where the locale
    machinery throws an object that is no [std::exception]. *)

Module Faults.

Import Scenario.

Definition bad_alloc : exn := Exn_std (Std_other "std::bad_alloc" "std::bad_alloc").

Definition faulty : Collaborators host := {|
  WIN32 := false;
  DWARFS_USE_EXCEPTION_TRACER := true;
  std_system_error_init := throw bad_alloc;
  std_system_error_what := @std_system_error_what _ posix;
  std_locale_global := fun _ => throw (Exn_foreign "locale_panic");
  std_locale_global_classic := @std_locale_global_classic _ posix;
  std_setlocale := @std_setlocale _ posix;
  installFatalSignalHandler := @installFatalSignalHandler _ posix;
  show_exception_info := @show_exception_info _ posix;
  setup_terminal := @setup_terminal _ posix
|}.

Definition without_c_locale : host := mk_host true true false true.

(** An entry point that fails with a [dwarfs::error] and one that is an empty
    [std::function]. *)
Definition raises_error : M host Z := throw terminal_failure.
Definition empty_function : M host Z :=
  throw (Exn_std (Std_other "std::bad_function_call" "bad_function_call")).


(** The build of [posix_traced] with the rendering folly's tracer gives an
    entry that recorded a stack trace: the type, then one line per frame. *)
Definition framed : Collaborators host := {|
  WIN32 := false;
  DWARFS_USE_EXCEPTION_TRACER := true;
  std_system_error_init := @std_system_error_init _ posix;
  std_system_error_what := @std_system_error_what _ posix;
  std_locale_global := @std_locale_global _ posix;
  std_locale_global_classic := @std_locale_global_classic _ posix;
  std_setlocale := @std_setlocale _ posix;
  installFatalSignalHandler := @installFatalSignalHandler _ posix;
  show_exception_info :=
    fun x => @show_exception_info _ posix x ++ " (2 frames)" ++ nl
             ++ "    @ scan()" ++ nl ++ "    @ main";
  setup_terminal := @setup_terminal _ posix
|}.

(** A process in which the exceptions [chain] are being handled, the most
    recent one first, and nothing has been written. *)
Definition handling (chain : list exn) : world host :=
  mk_world 2 "" chain healthy.

(** A tracer query that runs out of memory. *)
Definition failing_query : M host (list exn) := throw bad_alloc.

End Faults.

(** * Properties *)

(** ** Texts *)

Module TextFacts.

Lemma append_assoc (a b c : string) : (a ++ b) ++ c = a ++ (b ++ c).
Proof.
  induction a as [|x a IH]; simpl; [reflexivity | now rewrite IH].
Qed.

Lemma append_nil_r (a : string) : a ++ "" = a.
Proof.
  induction a as [|x a IH]; simpl; [reflexivity | now rewrite IH].
Qed.

Lemma prefix_append (a b : string) : String.prefix a (a ++ b) = true.
Proof.
  induction a as [|x a IH]; simpl.
  - now destruct b.
  - destruct (ascii_dec x x) as [_|ne]; [exact IH | now elim ne].
Qed.

Lemma contains_prefix (sub s : string) :
  String.prefix sub s = true -> contains sub s = true.
Proof. destruct s; simpl; intros ->; reflexivity. Qed.

Lemma contains_here (sub rest : string) : contains sub (sub ++ rest) = true.
Proof. apply contains_prefix, prefix_append. Qed.

Lemma contains_skip (pre sub s : string) :
  contains sub s = true -> contains sub (pre ++ s) = true.
Proof.
  intros H. induction pre as [|x pre IH]; simpl; [exact H|].
  rewrite IH. apply orb_true_r.
Qed.

Lemma contains_middle (pre sub post : string) :
  contains sub (pre ++ sub ++ post) = true.
Proof. apply contains_skip, contains_here. Qed.

Lemma count_nl_append (a b : string) :
  count_nl (a ++ b) = (count_nl a + count_nl b)%nat.
Proof.
  induction a as [|x a IH]; simpl; [reflexivity | rewrite IH; lia].
Qed.

Lemma count_nl_show_uint (d : Decimal.uint) :
  count_nl (NilZero.string_of_uint d) = O.
Proof.
  destruct d; try reflexivity; simpl;
    match goal with |- count_nl (NilEmpty.string_of_uint ?u) = _ =>
      induction u; simpl; auto end.
Qed.

Lemma count_nl_show_int (z : Z) : count_nl (show_int z) = O.
Proof.
  unfold show_int. destruct (Z.to_int z) as [d|d]; simpl.
  - apply count_nl_show_uint.
  - apply count_nl_show_uint.
Qed.

Lemma count_nl_nl : count_nl nl = 1%nat.
Proof. reflexivity. Qed.

Lemma count_nl_join_lines (f : exn -> string) (chain : list exn) :
  count_nl (join (map (fun e => f e ++ nl) chain))
  = (length chain + list_sum (map (fun e => count_nl (f e)) chain))%nat.
Proof.
  induction chain as [|x chain IH]; simpl; [reflexivity|].
  rewrite !count_nl_append, IH, count_nl_nl. lia.
Qed.

End TextFacts.

Import TextFacts.

(** ** The monad *)

Section ProcessFacts.

Context {Ext : Type}.
Implicit Types (w : world Ext) (s : string) (x : exn).

Lemma emit_nil w : emit "" w = w.
Proof. destruct w; unfold emit; simpl. now rewrite append_nil_r. Qed.

Lemma emit_emit a b w : emit b (emit a w) = emit (a ++ b) w.
Proof. unfold emit; simpl. now rewrite append_assoc. Qed.

Lemma end_catch_emit_begin x s w : end_catch (emit s (begin_catch x w)) = emit s w.
Proof. reflexivity. Qed.

Lemma end_catch_begin x w : end_catch (begin_catch x w) = w.
Proof. now destruct w. Qed.

Lemma caught_emit s w : caught (emit s w) = caught w.
Proof. reflexivity. Qed.

Lemma cerr_emit s w : cerr (emit s w) = cerr w ++ s.
Proof. reflexivity. Qed.

(** An exception never leaves a [noexcept] function. *)
Lemma noexcept_never_throws {A} (m : M Ext A) w x : fst (noexcept m w) <> Throw x.
Proof.
  unfold noexcept. destruct (m w) as [[a|y|] w']; simpl; discriminate.
Qed.

Lemma noexcept_ret {A} (m : M Ext A) w a w' :
  m w = (Ret a, w') -> noexcept m w = (Ret a, w').
Proof. unfold noexcept. now intros ->. Qed.

Lemma bind_ret_l {A B} (m : M Ext A) (k : A -> M Ext B) w a w' :
  m w = (Ret a, w') -> bind m k w = k a w'.
Proof. unfold bind. now intros ->. Qed.

Lemma bind_throw {A B} (m : M Ext A) (k : A -> M Ext B) w x w' :
  m w = (Throw x, w') -> bind m k w = (Throw x, w').
Proof. unfold bind. now intros ->. Qed.

Lemma bind_abort {A B} (m : M Ext A) (k : A -> M Ext B) w w' :
  m w = (Abort, w') -> bind m k w = (Abort, w').
Proof. unfold bind. now intros ->. Qed.

Lemma bind_assoc {A B D} (m : M Ext A) (k : A -> M Ext B) (h : B -> M Ext D) w :
  bind (bind m k) h w = bind m (fun a => bind (k a) h) w.
Proof. unfold bind. destruct (m w) as [[a|y|] w']; reflexivity. Qed.

Lemma bind_ext {A B} (m : M Ext A) (k1 k2 : A -> M Ext B) w :
  (forall a w', k1 a w' = k2 a w') -> bind m k1 w = bind m k2 w.
Proof. intros H. unfold bind. destruct (m w) as [[a|y|] w']; auto. Qed.

Lemma try_catch_ext {A} (b1 b2 : M Ext A) cs w :
  b1 w = b2 w -> try_catch b1 cs w = try_catch b2 cs w.
Proof. unfold try_catch. now intros ->. Qed.

(** A loop whose body only writes appends the concatenation of the texts. *)
Lemma for_each_write {A} (f : A -> string) (xs : list A) w :
  for_each xs (fun a => cerr_write (f a)) w = (Ret tt, emit (join (map f xs)) w).
Proof.
  revert w. induction xs as [|a xs IH]; intros w; simpl.
  - unfold ret. now rewrite emit_nil.
  - unfold bind, cerr_write. rewrite IH, emit_emit. reflexivity.
Qed.

End ProcessFacts.

(** ** The translation unit *)

Section ProgramFacts.

Context {Ext : Type} {C : Collaborators Ext}.
Implicit Types (w : world Ext) (fn : M Ext Z) (x : exn).

Lemma count_nl_entries (chain : list exn) :
  count_nl (entries chain) = (length chain + inner_nl chain)%nat.
Proof. apply count_nl_join_lines. Qed.

Lemma dump_exceptions_run w :
  dump_exceptions w = (Ret tt, emit (dump_text (caught w)) w).
Proof.
  unfold dump_exceptions, dump_text, entries.
  destruct DWARFS_USE_EXCEPTION_TRACER; [|reflexivity].
  unfold bind, getCurrentExceptions.
  apply (for_each_write (fun e => show_exception_info e ++ nl)).
Qed.

Lemma dump_exceptions_via_tracer w :
  dump_exceptions_via getCurrentExceptions w = dump_exceptions w.
Proof. reflexivity. Qed.

(** The four handlers of [safe_main] amount to [catch_boundary]. *)
Lemma safe_main_parts fn w : safe_main fn w = catch_boundary (startup ;; fn) w.
Proof.
  unfold safe_main.
  match goal with |- try_catch ?b _ _ = _ => set (body := b) end.
  assert (Hbody : body w = (startup ;; fn) w).
  { subst body. unfold startup. cbv zeta. symmetry.
    rewrite bind_assoc. apply bind_ext; intros _ w1.
    rewrite bind_assoc. apply bind_ext; intros _ w2.
    rewrite bind_assoc. unfold c_locale_setup. rewrite bind_assoc.
    reflexivity. }
  unfold try_catch, catch_boundary. rewrite Hbody.
  destruct ((startup ;; fn) w) as [[n|x|] w']; try reflexivity.
  destruct x as [[e|e|c m]|t]; simpl;
    unfold bind, cerr_write, ret; rewrite dump_exceptions_run; simpl;
    rewrite ?emit_emit; reflexivity.
Qed.

Lemma catch_boundary_seq (m : M Ext unit) fn w w' :
  m w = (Ret tt, w') -> catch_boundary (m ;; fn) w = catch_boundary fn w'.
Proof.
  intros H. unfold catch_boundary. now rewrite (bind_ret_l _ _ _ _ _ H).
Qed.

(** [safe_main] hands no exception to its caller. *)
Lemma safe_main_never_throws fn w x : fst (safe_main fn w) <> Throw x.
Proof.
  rewrite safe_main_parts. unfold catch_boundary.
  destruct ((startup ;; fn) w) as [[n|y|] w']; simpl; discriminate.
Qed.

(** The three outcomes of the locale block that do not leave it. *)
Lemma locale_setup_ok w w' :
  std_locale_global locale_name w = (Ret tt, w') -> locale_setup w = (Ret tt, w').
Proof. intros H. unfold locale_setup, try_catch. now rewrite H. Qed.

Lemma locale_setup_fallback w w2 w3 e1 :
  std_locale_global locale_name w = (Throw (Exn_std e1), w2) ->
  std_locale_global_classic
    (emit user_locale_warning (begin_catch (Exn_std e1) w2)) = (Ret tt, w3) ->
  locale_setup w = (Ret tt, end_catch w3).
Proof.
  intros H1 H2. unfold locale_setup, try_catch. rewrite H1. simpl.
  unfold bind, cerr_write, try_catch. now rewrite H2.
Qed.

Lemma locale_setup_both_fail w w2 w3 e1 e2 :
  std_locale_global locale_name w = (Throw (Exn_std e1), w2) ->
  std_locale_global_classic
    (emit user_locale_warning (begin_catch (Exn_std e1) w2))
    = (Throw (Exn_std e2), w3) ->
  locale_setup w = (Ret tt, end_catch (emit classic_locale_warning w3)).
Proof.
  intros H1 H2. unfold locale_setup, try_catch. rewrite H1. simpl.
  unfold bind, cerr_write, try_catch. rewrite H2. reflexivity.
Qed.

(** Where a failure of the setup steps comes from. *)
Lemma startup_signal_failure w w' x :
  signal_setup w = (Throw x, w') -> startup w = (Throw x, w').
Proof. intros H. unfold startup. now rewrite (bind_throw _ _ _ _ _ H). Qed.

Lemma startup_locale_failure w0 w1 w2 tag :
  signal_setup w0 = (Ret tt, w1) ->
  std_locale_global locale_name w1 = (Throw (Exn_foreign tag), w2) ->
  startup w0 = (Throw (Exn_foreign tag), w2).
Proof.
  intros H0 H1. unfold startup. rewrite (bind_ret_l _ _ _ _ _ H0).
  apply bind_throw. unfold locale_setup, try_catch. now rewrite H1.
Qed.

Lemma startup_terminal_failure w0 w1 w2 w3 w4 x :
  signal_setup w0 = (Ret tt, w1) ->
  locale_setup w1 = (Ret tt, w2) ->
  c_locale_setup w2 = (Ret tt, w3) ->
  setup_terminal w3 = (Throw x, w4) ->
  startup w0 = (Throw x, w4).
Proof.
  intros H0 H1 H2 H3. unfold startup.
  rewrite (bind_ret_l _ _ _ _ _ H0), (bind_ret_l _ _ _ _ _ H1),
    (bind_ret_l _ _ _ _ _ H2).
  exact H3.
Qed.

(** An object a constructor without a code argument returns holds the
    [errno] of the call. *)
Lemma system_error_here_inv file line w e w' :
  system_error_here file line w = (Ret e, w') -> code e = errno w.
Proof.
  unfold system_error_here, system_error_code, noexcept, bind, get_errno, ret.
  destruct (std_system_error_init w) as [[[]|y|] w1]; simpl;
    intros H; inversion H; reflexivity.
Qed.

Lemma system_error_msg_inv s file line w e w' :
  system_error_msg s file line w = (Ret e, w') -> code e = errno w.
Proof.
  unfold system_error_msg, system_error_msg_code, noexcept, bind, get_errno, ret.
  destruct (std_system_error_init w) as [[[]|y|] w1]; simpl;
    intros H; inversion H; reflexivity.
Qed.

(** ** The claims *)

(** C1.  When the setup steps complete and the entry point raises a
    [system_error] with code E, origin file F and line L, [safe_main] writes
    the line [ERROR: <description> [F:L]], where the description is
    [folly::exceptionStr] of the exception and so contains the text rendered
    for E, then writes what [dump_exceptions] writes while that exception is
    being handled, and returns 1. *)
Theorem safe_main_reports_system_error fn w0 w1 w2 e :
  startup w0 = (Ret tt, w1) ->
  fn w1 = (Throw (Exn_std (Std_system_error e)), w2) ->
  let origin := "[" ++ file_ e ++ ":" ++ show_int (line_ e) ++ "]" in
  let line := "ERROR: " ++ exceptionStr (Std_system_error e) ++ " " ++ origin ++ nl in
  safe_main fn w0
  = (Ret 1, emit (line ++ dump_text (Exn_std (Std_system_error e) :: caught w2)) w2)
  /\ contains (system_error_what e) line = true
  /\ contains origin line = true.
Proof.
  intros Hs Hf origin line. split; [|split].
  - rewrite safe_main_parts. unfold catch_boundary.
    rewrite (bind_ret_l _ _ _ _ _ Hs), Hf.
    subst line origin. unfold diagnostic. rewrite !append_assoc. reflexivity.
  - subst line. unfold exceptionStr. rewrite !append_assoc.
    apply (contains_skip "ERROR: "), contains_skip.
    apply (contains_skip ": "), contains_here.
  - subst line. apply (contains_skip "ERROR: "), contains_skip.
    apply (contains_skip " "), contains_here.
Qed.

(** C2.  When the setup steps complete and the entry point returns n (42 for
    instance), [safe_main] returns n and leaves the process as the entry
    point left it: no handler ran. *)
Theorem safe_main_returns_entry_status fn w0 w1 w2 n :
  startup w0 = (Ret tt, w1) ->
  fn w1 = (Ret n, w2) ->
  safe_main fn w0 = (Ret n, w2).
Proof.
  intros Hs Hf. rewrite safe_main_parts. unfold catch_boundary.
  rewrite (bind_ret_l _ _ _ _ _ Hs), Hf. reflexivity.
Qed.

(** C3.  When the entry point raises an exception outside the
    [std::exception] tree, [safe_main] writes what [dump_exceptions] writes,
    which is at least one line, and returns 1; in no state at all does
    [safe_main] let an exception reach its caller. *)
Theorem safe_main_contains_foreign_failure fn w0 w1 w2 tag :
  startup w0 = (Ret tt, w1) ->
  fn w1 = (Throw (Exn_foreign tag), w2) ->
  let text := dump_text (Exn_foreign tag :: caught w2) in
  safe_main fn w0 = (Ret 1, emit text w2)
  /\ (1 <= count_nl text)%nat
  /\ forall w x, fst (safe_main fn w) <> Throw x.
Proof.
  intros Hs Hf text. split; [|split].
  - rewrite safe_main_parts. unfold catch_boundary.
    rewrite (bind_ret_l _ _ _ _ _ Hs), Hf. reflexivity.
  - subst text. unfold dump_text.
    destruct DWARFS_USE_EXCEPTION_TRACER.
    + rewrite count_nl_entries. simpl. lia.
    + rewrite count_nl_append, count_nl_nl. lia.
  - intros w x. apply safe_main_never_throws.
Qed.

(** C4.  A [system_error] built without an error code, with or without a
    message, stores the value [errno] has when the constructor is entered,
    whatever the construction of the [std::system_error] base then does to
    [errno]. *)
Theorem system_error_captures_errno (s file : string) (line : Z) w w' :
  std_system_error_init w = (Ret tt, w') ->
  system_error_here file line w
  = (Ret {| what_arg := None; code := errno w; file_ := file; line_ := line |}, w')
  /\ system_error_msg s file line w
     = (Ret {| what_arg := Some s; code := errno w; file_ := file; line_ := line |}, w').
Proof.
  intros H.
  unfold system_error_here, system_error_msg, system_error_code,
    system_error_msg_code, noexcept, bind, get_errno, ret.
  rewrite H. split; reflexivity.
Qed.

(** C5.  A [system_error] built with an explicit error code stores exactly
    that code, whatever [errno] holds. *)
Theorem system_error_keeps_explicit_code (s file : string) (err line : Z) w w' :
  std_system_error_init w = (Ret tt, w') ->
  system_error_msg_code s err file line w
  = (Ret {| what_arg := Some s; code := err; file_ := file; line_ := line |}, w')
  /\ system_error_code err file line w
     = (Ret {| what_arg := None; code := err; file_ := file; line_ := line |}, w').
Proof.
  intros H.
  unfold system_error_code, system_error_msg_code, noexcept, bind, ret.
  rewrite H. split; reflexivity.
Qed.

(** C6, amended.  For every condition text, message, file and line,
    [assertion_failed] appends exactly
    [Assertion `<condition>` failed in <file>(<line>): <message>] and a line
    feed, the condition standing between backquotes; the text depends on
    these four inputs only and holds one line feed more than the inputs do;
    the call then ends the process and never returns. *)
Theorem assertion_failed_writes_and_aborts (expr msg file : string) (line : Z) w :
  assertion_failed expr msg file line w
  = (Abort, emit (assertion_line expr msg file line ++ nl) w)
  /\ count_nl (assertion_line expr msg file line ++ nl)
     = (1 + count_nl expr + count_nl file + count_nl msg)%nat.
Proof.
  split.
  - unfold assertion_failed, bind, cerr_write, abort, assertion_line.
    rewrite !append_assoc. reflexivity.
  - unfold assertion_line.
    rewrite !count_nl_append, count_nl_show_int, count_nl_nl. simpl. lia.
Qed.

(** C7.  When setting the preferred locale fails with a [std::exception],
    [safe_main] writes the first warning and sets the classic locale; when
    that fails with a [std::exception] too, it writes the second warning.
    Either way the locale block returns normally and [safe_main] goes on
    with the C locale, the terminal setup and the entry point, which is
    invoked as soon as those two steps return. *)
Theorem locale_failure_is_not_fatal fn w0 w1 w2 w3 w4 e1 e2 :
  signal_setup w0 = (Ret tt, w1) ->
  std_locale_global locale_name w1 = (Throw (Exn_std e1), w2) ->
  let warned := emit user_locale_warning (begin_catch (Exn_std e1) w2) in
  (std_locale_global_classic warned = (Ret tt, w3) /\ w4 = end_catch w3) \/
  (std_locale_global_classic warned = (Throw (Exn_std e2), w3)
   /\ w4 = end_catch (emit classic_locale_warning w3)) ->
  locale_setup w1 = (Ret tt, w4)
  /\ safe_main fn w0 = catch_boundary (c_locale_setup ;; setup_terminal ;; fn) w4
  /\ forall w5, (c_locale_setup ;; setup_terminal) w4 = (Ret tt, w5) ->
                safe_main fn w0 = catch_boundary fn w5.
Proof.
  intros H0 H1 warned Hc.
  assert (Hl : locale_setup w1 = (Ret tt, w4)).
  { destruct Hc as [[Hc ->]|[Hc ->]].
    - eapply locale_setup_fallback; eassumption.
    - eapply locale_setup_both_fail; eassumption. }
  assert (Hm : safe_main fn w0
               = catch_boundary (c_locale_setup ;; setup_terminal ;; fn) w4).
  { rewrite safe_main_parts. unfold startup, catch_boundary.
    rewrite bind_assoc, (bind_ret_l _ _ _ _ _ H0).
    rewrite bind_assoc, (bind_ret_l _ _ _ _ _ Hl).
    rewrite bind_assoc. reflexivity. }
  split; [exact Hl|]. split; [exact Hm|].
  intros w5 H5. rewrite Hm.
  unfold catch_boundary. rewrite <- bind_assoc.
  now rewrite (bind_ret_l _ _ _ _ _ H5).
Qed.

(** C8, amended.  [dump_exceptions] returns normally, in every state and in
    both builds.  With the exception tracer it appends one entry per
    exception being handled, the most recent first, each entry being the
    tracer's rendering followed by a line feed: an exception takes one line
    more than its rendering holds line feeds, so one line each only when no
    rendering holds a line feed.  Without the tracer it appends exactly the
    line [cannot dump exceptions].  The function has no failure path of its
    own: with any query in place of [getCurrentExceptions] it returns when
    the query returns, and an exception leaves it only when the tracer is
    compiled in and the query raised that exception. *)
Theorem dump_exceptions_entries_and_return (query : M Ext (list exn)) w :
  let text := if DWARFS_USE_EXCEPTION_TRACER
              then join (map (fun e => show_exception_info e ++ nl) (caught w))
              else "cannot dump exceptions" ++ nl in
  fst (dump_exceptions w) = Ret tt
  /\ cerr (snd (dump_exceptions w)) = cerr w ++ text
  /\ count_nl text
     = (if DWARFS_USE_EXCEPTION_TRACER
        then length (caught w) + inner_nl (caught w)
        else 1)%nat
  /\ (forall xs w', query w = (Ret xs, w') ->
        fst (dump_exceptions_via query w) = Ret tt)
  /\ (forall x w', dump_exceptions_via query w = (Throw x, w') ->
        DWARFS_USE_EXCEPTION_TRACER = true /\ query w = (Throw x, w')).
Proof.
  intros text. subst text. rewrite dump_exceptions_run. cbn [fst snd].
  unfold dump_text, dump_exceptions_via, entries.
  destruct DWARFS_USE_EXCEPTION_TRACER.
  - split; [reflexivity|]. split; [reflexivity|].
    split; [apply count_nl_join_lines|]. split.
    + intros xs w' Hq. rewrite (bind_ret_l _ _ _ _ _ Hq).
      now rewrite (for_each_write (fun e => show_exception_info e ++ nl)).
    + intros x w' H. split; [reflexivity|]. revert H. unfold bind.
      destruct (query w) as [[xs|y|] w1];
        [| intros H; inversion H; reflexivity | discriminate].
      rewrite (for_each_write (fun e => show_exception_info e ++ nl)).
      discriminate.
  - split; [reflexivity|]. split; [reflexivity|].
    split; [reflexivity|]. split; [reflexivity|].
    intros x w' H. discriminate H.
Qed.

(** C9.  No constructor of [system_error] throws, whatever its arguments
    and whatever the construction of the base does; each returns the object
    as soon as the construction of the base returns. *)
Theorem system_error_constructors_never_throw (s file : string) (err line : Z) w :
  (forall x,
     fst (system_error_here file line w) <> Throw x
     /\ fst (system_error_msg s file line w) <> Throw x
     /\ fst (system_error_msg_code s err file line w) <> Throw x
     /\ fst (system_error_code err file line w) <> Throw x)
  /\ (forall w', std_system_error_init w = (Ret tt, w') ->
      exists e1 e2 e3 e4,
        system_error_here file line w = (Ret e1, w')
        /\ system_error_msg s file line w = (Ret e2, w')
        /\ system_error_msg_code s err file line w = (Ret e3, w')
        /\ system_error_code err file line w = (Ret e4, w')).
Proof.
  split.
  - intros x. repeat split; apply noexcept_never_throws.
  - intros w' H.
    unfold system_error_here, system_error_msg, system_error_code,
      system_error_msg_code, noexcept, bind, get_errno, ret.
    rewrite H. repeat eexists.
Qed.

(** C10.  When a setup step raises an exception before the entry point is
    reached, [safe_main] handles it like a failure of the entry point: it
    writes the diagnostic of the exception's class, then what
    [dump_exceptions] writes, and returns 1, whatever the entry point is,
    which is not invoked. *)
Theorem safe_main_catches_setup_failure w0 w1 x :
  startup w0 = (Throw x, w1) ->
  forall fn,
    safe_main fn w0
    = (Ret 1, emit (diagnostic x ++ dump_text (x :: caught w1)) w1).
Proof.
  intros Hs fn. rewrite safe_main_parts. unfold catch_boundary.
  rewrite (bind_throw _ _ _ _ _ Hs). reflexivity.
Qed.

End ProgramFacts.

(** ** The claims on the concrete process *)

Module Runs.

Import Scenario.

(** The entry point fails with ENOENT at mmap.cpp:42. *)
Lemma safe_main_reports_system_error_run :
  safe_main (C := posix) raises_enoent (boot healthy)
  = (Ret 1,
     mk_world 2
       ("ERROR: dwarfs::system_error: open: No such file or directory [mmap.cpp:42]"
        ++ nl ++ "cannot dump exceptions" ++ nl)
       [] healthy).
Proof.
  exact (proj1 (safe_main_reports_system_error (C := posix) raises_enoent
                  (boot healthy) (boot healthy) (boot healthy) enoent
                  eq_refl eq_refl)).
Defined.

(** The entry point returns 42. *)
Lemma safe_main_returns_entry_status_run :
  safe_main (C := posix) returns_42 (boot healthy) = (Ret 42, boot healthy).
Proof.
  exact (safe_main_returns_entry_status (C := posix) returns_42
           (boot healthy) (boot healthy) (boot healthy) 42 eq_refl eq_refl).
Defined.

(** The entry point throws an [int], with the exception tracer compiled in. *)
Lemma safe_main_contains_foreign_failure_run :
  safe_main (C := posix_traced) raises_int (boot healthy)
  = (Ret 1, mk_world 2 ("Exception type: int" ++ nl) [] healthy).
Proof.
  exact (proj1 (safe_main_contains_foreign_failure (C := posix_traced) raises_int
                  (boot healthy) (boot healthy) (boot healthy) "int"
                  eq_refl eq_refl)).
Defined.

(** [errno] is ENOENT (2) when the constructors are entered and ENOMEM (12)
    when they return: the objects hold 2. *)
Lemma system_error_captures_errno_run :
  system_error_here (C := posix) "scanner.cpp" 7 (boot healthy)
  = (Ret {| what_arg := None; code := 2; file_ := "scanner.cpp"; line_ := 7 |},
     mk_world 12 "" [] healthy)
  /\ system_error_msg (C := posix) "read" "scanner.cpp" 7 (boot healthy)
     = (Ret {| what_arg := Some "read"; code := 2; file_ := "scanner.cpp";
               line_ := 7 |},
        mk_world 12 "" [] healthy).
Proof.
  exact (system_error_captures_errno (C := posix) "read" "scanner.cpp" 7
           (boot healthy) (mk_world 12 "" [] healthy) eq_refl).
Defined.

(** [errno] is ENOENT (2); the objects hold the EACCES (13) they were given. *)
Lemma system_error_keeps_explicit_code_run :
  system_error_msg_code (C := posix) "open" 13 "scanner.cpp" 9 (boot healthy)
  = (Ret {| what_arg := Some "open"; code := 13; file_ := "scanner.cpp";
            line_ := 9 |},
     mk_world 12 "" [] healthy)
  /\ system_error_code (C := posix) 13 "scanner.cpp" 9 (boot healthy)
     = (Ret {| what_arg := None; code := 13; file_ := "scanner.cpp"; line_ := 9 |},
        mk_world 12 "" [] healthy).
Proof.
  exact (system_error_keeps_explicit_code (C := posix) "open" "scanner.cpp" 13 9
           (boot healthy) (mk_world 12 "" [] healthy) eq_refl).
Defined.

(** C6 as stated fails: the line written for the condition [n > 0] has the
    condition between backquotes, which the specified shape does not have. *)
Lemma assertion_line_is_not_the_specified_one :
  cerr (snd (assertion_failed "n > 0" "empty input" "scan.cpp" 12
               (boot healthy)))
  <> cerr (boot healthy)
     ++ specified_assertion_line "n > 0" "empty input" "scan.cpp" 12 ++ nl.
Proof. vm_compute. discriminate. Qed.

(** Neither locale can be set: both warnings are written and the entry point
    still runs and returns its 42.  Only the preferred locale cannot be set:
    one warning. *)
Lemma locale_failure_is_not_fatal_run :
  safe_main (C := posix) returns_42 (boot without_locales)
  = (Ret 42,
     mk_world 2 (user_locale_warning ++ classic_locale_warning) [] without_locales)
  /\ safe_main (C := posix) returns_42 (boot without_classic_only)
     = (Ret 42, mk_world 2 user_locale_warning [] without_classic_only).
Proof.
  split.
  - exact (proj2 (proj2
      (locale_failure_is_not_fatal (C := posix) returns_42
         (boot without_locales) (boot without_locales) (boot without_locales)
         (emit user_locale_warning
            (begin_catch (runtime_error "locale name not valid")
               (boot without_locales)))
         (mk_world 2 (user_locale_warning ++ classic_locale_warning) []
            without_locales)
         (Std_other "std::runtime_error" "locale name not valid")
         (Std_other "std::runtime_error" "classic locale unavailable")
         eq_refl eq_refl (or_intror (conj eq_refl eq_refl))))
      (mk_world 2 (user_locale_warning ++ classic_locale_warning) []
         without_locales)
      eq_refl).
  - exact (proj2 (proj2
      (locale_failure_is_not_fatal (C := posix) returns_42
         (boot without_classic_only) (boot without_classic_only)
         (boot without_classic_only)
         (emit user_locale_warning
            (begin_catch (runtime_error "locale name not valid")
               (boot without_classic_only)))
         (mk_world 2 user_locale_warning [] without_classic_only)
         (Std_other "std::runtime_error" "locale name not valid")
         (Std_other "std::runtime_error" "locale name not valid")
         eq_refl eq_refl (or_introl (conj eq_refl eq_refl))))
      (mk_world 2 user_locale_warning [] without_classic_only)
      eq_refl).
Defined.

(** Two exceptions are being handled, a [std::runtime_error] raised while an
    [int] was: with the tracer one line each, the most recent first; without
    it the fixed line.  The dumper returns when its query does, and a query
    that runs out of memory is the only source of an exception. *)
Lemma dump_exceptions_entries_and_return_run :
  cerr (snd (dump_exceptions (C := posix_traced)
               (Faults.handling [runtime_error "disk full"; Exn_foreign "int"])))
  = "Exception type: std::runtime_error" ++ nl ++ "Exception type: int" ++ nl
  /\ cerr (snd (dump_exceptions (C := posix)
                  (Faults.handling [runtime_error "disk full"; Exn_foreign "int"])))
     = "cannot dump exceptions" ++ nl
  /\ fst (dump_exceptions_via (C := posix_traced) getCurrentExceptions
            (Faults.handling [runtime_error "disk full"; Exn_foreign "int"]))
     = Ret tt
  /\ (@DWARFS_USE_EXCEPTION_TRACER _ posix_traced = true
      /\ Faults.failing_query (Faults.handling [Exn_foreign "int"])
         = (Throw Faults.bad_alloc, Faults.handling [Exn_foreign "int"])).
Proof.
  split; [|split; [|split]].
  - exact (proj1 (proj2
      (dump_exceptions_entries_and_return (C := posix_traced)
         Faults.failing_query
         (Faults.handling [runtime_error "disk full"; Exn_foreign "int"])))).
  - exact (proj1 (proj2
      (dump_exceptions_entries_and_return (C := posix) Faults.failing_query
         (Faults.handling [runtime_error "disk full"; Exn_foreign "int"])))).
  - exact (proj1 (proj2 (proj2 (proj2
      (dump_exceptions_entries_and_return (C := posix_traced)
         getCurrentExceptions
         (Faults.handling [runtime_error "disk full"; Exn_foreign "int"])))))
      (caught (Faults.handling [runtime_error "disk full"; Exn_foreign "int"]))
      (Faults.handling [runtime_error "disk full"; Exn_foreign "int"])
      eq_refl).
  - exact (proj2 (proj2 (proj2 (proj2
      (dump_exceptions_entries_and_return (C := posix_traced)
         Faults.failing_query (Faults.handling [Exn_foreign "int"])))))
      Faults.bad_alloc (Faults.handling [Exn_foreign "int"]) eq_refl).
Defined.

(** C8 as stated fails: with a tracer that renders the recorded stack, one
    exception being handled takes three lines of the dump, not one. *)
Lemma dump_exceptions_entry_spans_lines :
  cerr (snd (dump_exceptions (C := Faults.framed)
               (Faults.handling [Exn_foreign "int"])))
  = "Exception type: int (2 frames)" ++ nl ++ "    @ scan()" ++ nl
    ++ "    @ main" ++ nl
  /\ count_nl (cerr (snd (dump_exceptions (C := Faults.framed)
                            (Faults.handling [Exn_foreign "int"]))))
     <> length (caught (Faults.handling [Exn_foreign "int"])).
Proof. split; [reflexivity | vm_compute; discriminate]. Qed.

(** Every constructor returns on the concrete process. *)
Lemma system_error_constructors_never_throw_run :
  fst (system_error_msg (C := posix) "read" "scanner.cpp" 7 (boot healthy))
  <> Throw (runtime_error "std::bad_alloc").
Proof.
  exact (proj1 (proj2 (proj1
    (system_error_constructors_never_throw (C := posix) "read" "scanner.cpp" 13 7
       (boot healthy)) (runtime_error "std::bad_alloc")))).
Defined.

(** The terminal cannot be set up: the failure is reported and the entry
    point, which would return 42, does not run. *)
Lemma safe_main_catches_setup_failure_run :
  safe_main (C := posix) returns_42 (boot without_terminal)
  = (Ret 1,
     mk_world 2
       ("ERROR: dwarfs::runtime_error: no terminal [terminal.cpp:17]" ++ nl
        ++ "cannot dump exceptions" ++ nl)
       [] without_terminal).
Proof.
  exact (safe_main_catches_setup_failure (C := posix) (boot without_terminal)
           (boot without_terminal) terminal_failure eq_refl returns_42).
Defined.

End Runs.

(** * Further properties of the translation unit *)

Section MoreFacts.

Context {Ext : Type} {C : Collaborators Ext}.
Implicit Types (w : world Ext) (fn : M Ext Z) (x : exn).

Lemma append_eq_self_nil (a b : string) : a ++ b = a -> b = "".
Proof.
  induction a as [|c a IH]; simpl; intros H; [exact H|].
  inversion H. auto.
Qed.

Lemma entries_nil_inv (chain : list exn) : entries chain = "" -> chain = [].
Proof.
  intros H. destruct chain as [|x chain]; [reflexivity|].
  apply (f_equal count_nl) in H. rewrite count_nl_entries in H.
  simpl in H. discriminate.
Qed.

(** ** [safe_main]: the handlers the claims do not cover *)

(** X1.  When the setup steps complete and the entry point raises a
    [dwarfs::error], [safe_main] writes
    [ERROR: <class>: <what> [<file>:<line>]] with the origin the exception
    carries, then what [dump_exceptions] writes, and returns 1. *)
Theorem safe_main_reports_error fn w0 w1 w2 (e : error) :
  startup w0 = (Ret tt, w1) ->
  fn w1 = (Throw (Exn_std (Std_error e)), w2) ->
  let origin := "[" ++ error_file e ++ ":" ++ show_int (error_line e) ++ "]" in
  let line := "ERROR: " ++ error_class e ++ ": " ++ error_what e ++ " "
              ++ origin ++ nl in
  safe_main fn w0
  = (Ret 1, emit (line ++ dump_text (Exn_std (Std_error e) :: caught w2)) w2)
  /\ contains origin line = true.
Proof.
  intros Hs Hf origin line. split.
  - rewrite safe_main_parts. unfold catch_boundary.
    rewrite (bind_ret_l _ _ _ _ _ Hs), Hf.
    subst line origin. unfold diagnostic, exceptionStr.
    cbn [class_name what]. rewrite !append_assoc. reflexivity.
  - subst line. apply (contains_skip "ERROR: "), contains_skip.
    apply (contains_skip ": "), contains_skip.
    apply (contains_skip " "), contains_here.
Qed.

(** X2.  When the entry point raises a [std::exception] that is neither a
    [dwarfs::system_error] nor a [dwarfs::error] (an empty [std::function]
    raises [std::bad_function_call], for instance), the line is
    [ERROR: <class>: <what>] and carries no origin; the dumper runs and the
    result is 1. *)
Theorem safe_main_reports_std_exception fn w0 w1 w2 (cls msg : string) :
  startup w0 = (Ret tt, w1) ->
  fn w1 = (Throw (Exn_std (Std_other cls msg)), w2) ->
  safe_main fn w0
  = (Ret 1,
     emit (("ERROR: " ++ cls ++ ": " ++ msg ++ nl)
           ++ dump_text (Exn_std (Std_other cls msg) :: caught w2)) w2).
Proof.
  intros Hs Hf. rewrite safe_main_parts. unfold catch_boundary.
  rewrite (bind_ret_l _ _ _ _ _ Hs), Hf.
  unfold diagnostic, exceptionStr. cbn [class_name what].
  rewrite !append_assoc. reflexivity.
Qed.

(** X3.  A status other than 1 comes from the entry point only: when
    [safe_main] returns [n] and [n] is not 1, the setup steps completed, the
    entry point was invoked and returned [n], and [safe_main] added nothing
    to the state. *)
Theorem safe_main_status_origin fn w w' n :
  safe_main fn w = (Ret n, w') ->
  n <> 1 ->
  exists w1, startup w = (Ret tt, w1) /\ fn w1 = (Ret n, w').
Proof.
  rewrite safe_main_parts. unfold catch_boundary, bind.
  destruct (startup w) as [[[]|x|] w1]; simpl.
  - destruct (fn w1) as [[m|x|] w2] eqn:Hf; simpl; intros H Hn;
      inversion H; subst.
    + exists w1. split; [reflexivity | exact Hf].
    + now elim Hn.
  - intros H Hn. inversion H; subst. now elim Hn.
  - discriminate.
Qed.

(** ** The locale steps *)

Lemma c_locale_setup_run w w' (ok : bool) :
  std_setlocale locale_name w = (Ret ok, w') ->
  c_locale_setup w = (Ret tt, if ok then w' else emit c_locale_warning w').
Proof.
  intros H. unfold c_locale_setup, bind. rewrite H. now destruct ok.
Qed.

(** X6.  A failing [std::setlocale] only costs a warning: once the signal
    handler and the C++ locale are set up and [std::setlocale] has returned,
    [safe_main] goes on with the terminal setup and the entry point, after
    writing the one fixed warning exactly when the call returned a null
    pointer.  The warning names the empty locale on every platform. *)
Theorem c_locale_failure_only_warns fn w0 w1 w2 w3 (ok : bool) :
  signal_setup w0 = (Ret tt, w1) ->
  locale_setup w1 = (Ret tt, w2) ->
  std_setlocale locale_name w2 = (Ret ok, w3) ->
  safe_main fn w0
  = catch_boundary (setup_terminal ;; fn)
      (if ok then w3 else emit c_locale_warning w3).
Proof.
  intros H0 H1 H2. rewrite safe_main_parts. unfold startup, catch_boundary.
  rewrite bind_assoc, (bind_ret_l _ _ _ _ _ H0).
  rewrite bind_assoc, (bind_ret_l _ _ _ _ _ H1).
  rewrite bind_assoc, (bind_ret_l _ _ _ _ _ (c_locale_setup_run _ _ _ H2)).
  reflexivity.
Qed.

(** X7.  No [std::exception] leaves the locale block of lines 92-101: in
    every state, whatever the two locale calls do, the block returns, ends
    the process or lets through an exception of another class. *)
Theorem locale_setup_leaks_no_std_exception w (e : std_exception) :
  fst (locale_setup w) <> Throw (Exn_std e).
Proof.
  unfold locale_setup, try_catch.
  destruct (std_locale_global locale_name w) as [[[]|[e1|t1]|] w1]; simpl;
    try discriminate.
  unfold bind, cerr_write, try_catch.
  destruct (std_locale_global_classic _) as [[[]|[e2|t2]|] w2]; simpl;
    discriminate.
Qed.

(** X8.  A locale failure that is no [std::exception] is not recovered: it
    skips the inner handlers and reaches the catch-all handler of
    [safe_main], which writes the dump only and returns 1 without invoking
    the entry point.  From the preferred locale this happens before any
    warning; from the classic locale the first warning has been written. *)
Theorem foreign_locale_failure_ends_startup w0 w1 w4 tag :
  signal_setup w0 = (Ret tt, w1) ->
  std_locale_global locale_name w1 = (Throw (Exn_foreign tag), w4)
  \/ (exists e1 w2 w3,
        std_locale_global locale_name w1 = (Throw (Exn_std e1), w2)
        /\ std_locale_global_classic
             (emit user_locale_warning (begin_catch (Exn_std e1) w2))
           = (Throw (Exn_foreign tag), w3)
        /\ w4 = end_catch w3) ->
  forall fn,
    safe_main fn w0
    = (Ret 1, emit (dump_text (Exn_foreign tag :: caught w4)) w4).
Proof.
  intros H0 Hl fn.
  assert (Hs : locale_setup w1 = (Throw (Exn_foreign tag), w4)).
  { unfold locale_setup, try_catch.
    destruct Hl as [H1|(e1 & w2 & w3 & H1 & H2 & ->)]; rewrite H1; simpl.
    - reflexivity.
    - unfold bind, cerr_write, try_catch. rewrite H2. reflexivity. }
  rewrite safe_main_parts. unfold startup, catch_boundary.
  rewrite bind_assoc, (bind_ret_l _ _ _ _ _ H0).
  rewrite bind_assoc, (bind_throw _ _ _ _ _ Hs). reflexivity.
Qed.

(** ** The constructors of [system_error] *)

(** X10.  When the construction of the [std::system_error] base throws,
    each of the four constructors ends the process in the state the base
    left instead of throwing ([noexcept]). *)
Theorem constructors_terminate_on_base_failure (s file : string) (err line : Z)
    w w' x :
  std_system_error_init w = (Throw x, w') ->
  system_error_here file line w = (Abort, w')
  /\ system_error_msg s file line w = (Abort, w')
  /\ system_error_msg_code s err file line w = (Abort, w')
  /\ system_error_code err file line w = (Abort, w').
Proof.
  intros H.
  unfold system_error_here, system_error_msg, system_error_code,
    system_error_msg_code, noexcept, bind, get_errno, ret.
  rewrite H. repeat split.
Qed.

(** X11.  Construction, throw and report compose: when the entry point
    throws a [system_error] built from a message only, the line [safe_main]
    writes renders the [errno] the entry point was entered with, whatever the
    base construction did to [errno] in between, and carries the file and
    line given to the constructor. *)
Theorem reported_code_is_errno_at_construction (s file : string) (line : Z)
    w0 w1 w2 :
  startup w0 = (Ret tt, w1) ->
  std_system_error_init w1 = (Ret tt, w2) ->
  let obj := {| what_arg := Some s; code := errno w1; file_ := file;
                line_ := line |} in
  let report := "ERROR: dwarfs::system_error: "
                ++ std_system_error_what (errno w1) (Some s)
                ++ " [" ++ file ++ ":" ++ show_int line ++ "]" ++ nl in
  safe_main (bind (system_error_msg s file line)
               (fun e => throw (Exn_std (Std_system_error e)))) w0
  = (Ret 1,
     emit (report ++ dump_text (Exn_std (Std_system_error obj) :: caught w2)) w2).
Proof.
  intros Hs Hi obj report.
  assert (Hc : system_error_msg s file line w1 = (Ret obj, w2)).
  { unfold system_error_msg, system_error_msg_code, noexcept, bind, get_errno,
      ret. now rewrite Hi. }
  rewrite safe_main_parts. unfold catch_boundary.
  rewrite (bind_ret_l _ _ _ _ _ Hs), (bind_ret_l _ _ _ _ _ Hc).
  unfold throw, diagnostic, exceptionStr. subst report obj.
  cbn [class_name what system_error_what code what_arg file_ line_].
  unfold system_error_what. cbn [code what_arg].
  rewrite !append_assoc. reflexivity.
Qed.

(** ** [dump_exceptions] outside a handler *)

(** X12.  With the exception tracer compiled in, [dump_exceptions] leaves
    [std::cerr] as it is exactly when no exception is being handled. *)
Theorem dump_exceptions_silent_iff w :
  DWARFS_USE_EXCEPTION_TRACER = true ->
  (cerr (snd (dump_exceptions w)) = cerr w <-> caught w = []).
Proof.
  intros Ht. rewrite dump_exceptions_run. simpl.
  unfold dump_text. rewrite Ht. split.
  - intros H. apply entries_nil_inv. eapply append_eq_self_nil, H.
  - intros ->. apply append_nil_r.
Qed.

(** ** [handle_nothrow] *)



End MoreFacts.

(** ** The further properties on the concrete processes *)

Module MoreRuns.

Import Scenario Faults.

Lemma safe_main_reports_error_run :
  safe_main (C := posix) raises_error (boot healthy)
  = (Ret 1,
     mk_world 2
       ("ERROR: dwarfs::runtime_error: no terminal [terminal.cpp:17]" ++ nl
        ++ "cannot dump exceptions" ++ nl)
       [] healthy).
Proof.
  exact (proj1 (safe_main_reports_error (C := posix) raises_error
                  (boot healthy) (boot healthy) (boot healthy)
                  {| error_class := "dwarfs::runtime_error";
                     error_what := "no terminal";
                     error_file := "terminal.cpp";
                     error_line := 17 |}
                  eq_refl eq_refl)).
Defined.

Lemma safe_main_reports_std_exception_run :
  safe_main (C := posix) empty_function (boot healthy)
  = (Ret 1,
     mk_world 2
       ("ERROR: std::bad_function_call: bad_function_call" ++ nl
        ++ "cannot dump exceptions" ++ nl)
       [] healthy).
Proof.
  exact (safe_main_reports_std_exception (C := posix) empty_function
           (boot healthy) (boot healthy) (boot healthy)
           "std::bad_function_call" "bad_function_call" eq_refl eq_refl).
Defined.

Lemma safe_main_status_origin_run :
  exists w1, startup (C := posix) (boot healthy) = (Ret tt, w1)
             /\ returns_42 w1 = (Ret 42, boot healthy).
Proof.
  apply (safe_main_status_origin (C := posix) returns_42 (boot healthy)
           (boot healthy) 42); [reflexivity | discriminate].
Defined.

Lemma c_locale_failure_only_warns_run :
  safe_main (C := posix) returns_42 (boot without_c_locale)
  = (Ret 42, mk_world 2 c_locale_warning [] without_c_locale).
Proof.
  exact (c_locale_failure_only_warns (C := posix) returns_42
           (boot without_c_locale) (boot without_c_locale)
           (boot without_c_locale) (boot without_c_locale) false
           eq_refl eq_refl eq_refl).
Defined.

Lemma foreign_locale_failure_ends_startup_run :
  safe_main (C := faulty) returns_42 (boot healthy)
  = (Ret 1, mk_world 2 ("Exception type: locale_panic" ++ nl) [] healthy).
Proof.
  exact (foreign_locale_failure_ends_startup (C := faulty) (boot healthy)
           (boot healthy) (boot healthy) "locale_panic" eq_refl
           (or_introl eq_refl) returns_42).
Defined.

Lemma constructors_terminate_on_base_failure_run :
  system_error_here (C := faulty) "scanner.cpp" 7 (boot healthy)
  = (Abort, boot healthy)
  /\ system_error_msg (C := faulty) "read" "scanner.cpp" 7 (boot healthy)
     = (Abort, boot healthy)
  /\ system_error_msg_code (C := faulty) "read" 13 "scanner.cpp" 7 (boot healthy)
     = (Abort, boot healthy)
  /\ system_error_code (C := faulty) 13 "scanner.cpp" 7 (boot healthy)
     = (Abort, boot healthy).
Proof.
  exact (constructors_terminate_on_base_failure (C := faulty) "read"
           "scanner.cpp" 13 7 (boot healthy) (boot healthy) bad_alloc eq_refl).
Defined.

(** [errno] is ENOENT (2) when the exception is built and ENOMEM (12) when
    it is reported: the report renders ENOENT. *)
Lemma reported_code_is_errno_at_construction_run :
  safe_main (C := posix)
    (bind (system_error_msg (C := posix) "read" "scanner.cpp" 7)
       (fun e => throw (Exn_std (Std_system_error e))))
    (boot healthy)
  = (Ret 1,
     mk_world 12
       ("ERROR: dwarfs::system_error: read: No such file or directory [scanner.cpp:7]"
        ++ nl ++ "cannot dump exceptions" ++ nl)
       [] healthy).
Proof.
  exact (reported_code_is_errno_at_construction (C := posix) "read"
           "scanner.cpp" 7 (boot healthy) (boot healthy)
           (mk_world 12 "" [] healthy) eq_refl eq_refl).
Defined.

Lemma dump_exceptions_silent_iff_run :
  cerr (snd (dump_exceptions (C := posix_traced) (boot healthy)))
  = cerr (boot healthy)
  <-> caught (boot healthy) = [].
Proof.
  exact (dump_exceptions_silent_iff (C := posix_traced) (boot healthy) eq_refl).
Defined.


End MoreRuns.
